(** * Significance of the difference between two correlation coefficients

    A shallow embedding of [MRDS/find_lc_spearman_significance.py]:
    [rz_ci], [rho_rxy_rxz], [dependent_corr], [independent_corr] and the
    sweep of the [__main__] block.

    Numbers.  A Python float is modelled by [float]: a real number, one of
    the two infinities, or not-a-number.  The arithmetic is read in two
    ways.

    In the first, used for what does not depend on rounding (which
    exception a call ends in, which arguments a branch reads, what an
    absolute value hides), finite values are exact reals: binary64
    rounding, overflow and the sign of zero are abstracted away.

    In the second, module [FP], the arithmetic of the machine is a
    parameter ([FP.arith]): every operation returns whatever binary64
    returns, an overflowing power or int conversion raises
    [OverflowError], and a theorem that needs a fact of IEEE 754 arithmetic
    takes it from [FP.arith_ok].  The steiger test and [rho_rxy_rxz], whose
    branches are decided by rounded values, are stated there.

    What the interpreter does *around* the arithmetic is kept as the source
    has it: Python's [/] raises [ZeroDivisionError], [math.pow] and
    [math.atanh] raise [ValueError] outside their domain, [math.tanh]
    raises [TypeError] on anything that is not a number, while numpy's
    [sqrt], [log] and [/] answer with nan or an infinity and go on.

    scipy's [norm.ppf], [norm.cdf] and [t.cdf] and numpy's [arange] are
    not part of the repository: they are parameters of the development. *)

From Stdlib Require Import Reals Lra Lia ZArith String List Bool.
Import ListNotations.

Open Scope R_scope.

(** ** Exceptions and results *)

Inductive exn : Type :=
| ZeroDivisionError
| ValueError
| TypeError
| IndexError
| OverflowError
| Exception (msg : string).

Inductive result (A : Type) : Type :=
| Return (a : A)
| Raise (e : exn).

Arguments Return {A} a.
Arguments Raise {A} e.

Definition bind {A B : Type} (m : result A) (k : A -> result B) : result B :=
  match m with
  | Return a => k a
  | Raise e => Raise e
  end.

Notation "x <- m ;; k" := (bind m (fun x => k))
  (at level 61, m at next level, right associativity).

(** ** Floats *)

Inductive float : Type :=
| Fin (x : R)
| Inf (neg : bool)
| NaN.

Definition Rltb (x y : R) : bool := if Rlt_dec x y then true else false.
Definition Reqb (x y : R) : bool := if Req_dec_T x y then true else false.

Definition fneg (a : float) : float :=
  match a with
  | Fin x => Fin (- x)
  | Inf s => Inf (negb s)
  | NaN => NaN
  end.

Definition fadd (a b : float) : float :=
  match a, b with
  | NaN, _ | _, NaN => NaN
  | Fin x, Fin y => Fin (x + y)
  | Fin _, Inf s | Inf s, Fin _ => Inf s
  | Inf s, Inf s' => if Bool.eqb s s' then Inf s else NaN
  end.

Definition fsub (a b : float) : float := fadd a (fneg b).

Definition fmul (a b : float) : float :=
  match a, b with
  | NaN, _ | _, NaN => NaN
  | Fin x, Fin y => Fin (x * y)
  | Fin x, Inf s | Inf s, Fin x =>
      if Reqb x 0 then NaN else Inf (xorb (Rltb x 0) s)
  | Inf s, Inf s' => Inf (xorb s s')
  end.

(** IEEE division, as numpy scalars do it: a zero divisor gives an
    infinity or nan, nothing is raised. *)
Definition fdiv (a b : float) : float :=
  match a, b with
  | NaN, _ | _, NaN => NaN
  | Fin x, Fin y =>
      if Reqb y 0 then (if Reqb x 0 then NaN else Inf (Rltb x 0))
      else Fin (x / y)
  | Fin _, Inf _ => Fin 0
  | Inf s, Fin y => Inf (xorb s (Rltb y 0))
  | Inf _, Inf _ => NaN
  end.

Definition fabs (a : float) : float :=
  match a with
  | Fin x => Fin (Rabs x)
  | Inf _ => Inf false
  | NaN => NaN
  end.

(** [a < b]; false as soon as one side is nan. *)
Definition flt (a b : float) : bool :=
  match a, b with
  | NaN, _ | _, NaN => false
  | Fin x, Fin y => Rltb x y
  | Fin _, Inf s => negb s
  | Inf s, Fin _ => s
  | Inf s, Inf s' => s && negb s'
  end.

(** [0 <= a], the reading of "nonnegative" on floats: nan is not. *)
Definition fnonneg (a : float) : Prop :=
  match a with
  | Fin x => 0 <= x
  | Inf s => s = false
  | NaN => False
  end.

(** [x ** k] and [math.pow(x, k)] for the integer exponents of the source. *)
Definition fpow (a : float) (k : nat) : float :=
  match a with
  | Fin x => Fin (x ^ k)
  | Inf s => Inf (s && Nat.odd k)
  | NaN => NaN
  end.

(** Python's float division. *)
Definition py_div (a b : float) : result float :=
  match b with
  | Fin y => if Reqb y 0 then Raise ZeroDivisionError else Return (fdiv a b)
  | _ => Return (fdiv a b)
  end.

(** True division of two ints ([from __future__ import division]). *)
Definition int_truediv (a b : Z) : result float :=
  if (b =? 0)%Z then Raise ZeroDivisionError
  else Return (Fin (IZR a / IZR b)).

(** [n - k] where [n] may be [None]. *)
Definition int_sub (n : option Z) (k : Z) : result Z :=
  match n with
  | Some m => Return (m - k)%Z
  | None => Raise TypeError
  end.

(** ** The [math] and [numpy] functions the module imports *)

(** [math.pow(x, .5)] *)
Definition math_pow_half (a : float) : result float :=
  match a with
  | Fin x => if Rltb x 0 then Raise ValueError else Return (Fin (sqrt x))
  | Inf _ => Return (Inf false)
  | NaN => Return NaN
  end.

Definition atanh (x : R) : R := / 2 * ln ((1 + x) / (1 - x)).

Definition math_atanh (a : float) : result float :=
  match a with
  | Fin x =>
      if Rltb (-1) x && Rltb x 1 then Return (Fin (atanh x))
      else Raise ValueError
  | Inf _ => Raise ValueError
  | NaN => Return NaN
  end.

(** What a call can be handed: a number or a tuple of numbers. *)
Inductive pyobj : Type :=
| PFloat (f : float)
| PTuple (l : list float).

Definition ftanh (a : float) : float :=
  match a with
  | Fin x => Fin (tanh x)
  | Inf s => Fin (if s then -1 else 1)
  | NaN => NaN
  end.

(** [math.tanh] converts its argument to a C double: a tuple is refused. *)
Definition math_tanh (o : pyobj) : result pyobj :=
  match o with
  | PFloat f => Return (PFloat (ftanh f))
  | PTuple _ => Raise TypeError
  end.

(** [o[i]] *)
Definition getitem (o : pyobj) (i : nat) : result float :=
  match o with
  | PFloat _ => Raise TypeError
  | PTuple l =>
      match nth_error l i with
      | Some f => Return f
      | None => Raise IndexError
      end
  end.

Definition np_sqrt (a : float) : float :=
  match a with
  | Fin x => if Rltb x 0 then NaN else Fin (sqrt x)
  | Inf s => if s then NaN else Inf false
  | NaN => NaN
  end.

Definition np_log (a : float) : float :=
  match a with
  | Fin x =>
      if Rltb x 0 then NaN
      else if Reqb x 0 then Inf true
      else Fin (ln x)
  | Inf s => if s then NaN else Inf false
  | NaN => NaN
  end.

(** ** The module *)

Section CorrelationStats.

(** [scipy.stats.norm.ppf], [scipy.stats.norm.cdf], [scipy.stats.t.cdf]
    (the second argument of the last one is the degrees of freedom). *)
Variable norm_ppf : float -> float.
Variable norm_cdf : float -> float.
Variable t_cdf : float -> Z -> float.

Definition rz_ci (r : float) (n : option Z) (conf_level : float)
  : result pyobj :=
  k <- int_sub n 3 ;;
  q <- int_truediv 1 k ;;
  zr_se <- math_pow_half q ;;
  h <- py_div (fsub (Fin 1) conf_level) (Fin 2) ;;
  let moe := fmul (norm_ppf (fsub (Fin 1) h)) zr_se in
  a <- math_atanh r ;;
  let zu := fadd a moe in
  a' <- math_atanh r ;;
  let zl := fsub a' moe in
  math_tanh (PTuple [zl; zu]).

Definition rho_rxy_rxz (rxy rxz ryz : float) : result float :=
  let num :=
    fadd
      (fmul (fsub ryz (fmul (fmul (Fin (1 / 2)) rxy) rxz))
            (fsub (fsub (fsub (Fin 1) (fpow rxy 2)) (fpow rxz 2))
                  (fpow ryz 2)))
      (fpow ryz 3) in
  let den :=
    fmul (fsub (Fin 1) (fpow rxy 2)) (fsub (Fin 1) (fpow rxz 2)) in
  py_div num den.

(** The four subscripted calls [rz_ci(r, n, conf_level=conf_level)[i]]. *)
Definition rz_ci_at (r : float) (n : option Z) (conf_level : float)
    (i : nat) : result float :=
  o <- rz_ci r n conf_level ;; getitem o i.

Definition dependent_corr (xy xz yz : float) (n : Z) (twotailed : bool)
    (conf_level : option float) (method : string)
  : result (float * float) :=
  if String.eqb method "steiger" then
    let d := fsub xy xz in
    let determin :=
      fadd
        (fsub (fsub (fsub (Fin 1) (fpow xy 2)) (fpow xz 2)) (fpow yz 2))
        (fmul (fmul (fmul (Fin 2) xy) xz) yz) in
    av <- py_div (fadd xy xz) (Fin 2) ;;
    let cube :=
      fmul (fmul (fsub (Fin 1) yz) (fsub (Fin 1) yz)) (fsub (Fin 1) yz) in
    let top := fmul (Fin (IZR (n - 1))) (fadd (Fin 1) yz) in
    c <- int_truediv (2 * (n - 1)) (n - 3) ;;
    e <- py_div top (fadd (fmul c determin) (fmul (fpow av 2) cube)) ;;
    if flt e (Fin 0) then Return (NaN, NaN)
    else
      let t2 := fmul d (np_sqrt e) in
      let p := fsub (Fin 1) (t_cdf (fabs t2) (n - 2)) in
      let p := if twotailed then fmul p (Fin 2) else p in
      Return (t2, p)
  else if String.eqb method "zou" then
    let conf_level :=
      match conf_level with
      | None => Fin (95 / 100)
      | Some c => c
      end in
    L1 <- rz_ci_at xy (Some n) conf_level 0 ;;
    U1 <- rz_ci_at xy (Some n) conf_level 1 ;;
    L2 <- rz_ci_at xz (Some n) conf_level 0 ;;
    U2 <- rz_ci_at xz (Some n) conf_level 1 ;;
    rho_r12_r13 <- rho_rxy_rxz xy xz yz ;;
    sl <- math_pow_half
            (fsub (fadd (fpow (fsub xy L1) 2) (fpow (fsub U2 xz) 2))
                  (fmul (fmul (fmul (Fin 2) rho_r12_r13) (fsub xy L1))
                        (fsub U2 xz))) ;;
    let lower := fsub (fsub xy xz) sl in
    su <- math_pow_half
            (fsub (fadd (fpow (fsub U1 xy) 2) (fpow (fsub xz L2) 2))
                  (fmul (fmul (fmul (Fin 2) rho_r12_r13) (fsub U1 xy))
                        (fsub xz L2))) ;;
    let upper := fadd (fsub xy xz) su in
    Return (lower, upper)
  else Raise (Exception "Wrong method!").

Definition independent_corr (xy ab : float) (n : Z) (n2 : option Z)
    (twotailed : bool) (conf_level : float) (method : string)
  : result (float * float) :=
  if String.eqb method "fisher" then
    q1 <- py_div (fadd (Fin 1) xy) (fsub (Fin 1) xy) ;;
    let xy_z := fmul (Fin (5 / 10)) (np_log q1) in
    q2 <- py_div (fadd (Fin 1) ab) (fsub (Fin 1) ab) ;;
    let xz_z := fmul (Fin (5 / 10)) (np_log q2) in
    let n2 := match n2 with None => n | Some m => m end in
    v1 <- int_truediv 1 (n - 3) ;;
    v2 <- int_truediv 1 (n2 - 3) ;;
    let se_diff_r := np_sqrt (fadd v1 v2) in
    let diff := fsub xy_z xz_z in
    let z := fabs (fdiv diff se_diff_r) in
    let p := fsub (Fin 1) (norm_cdf z) in
    let p := if twotailed then fmul p (Fin 2) else p in
    Return (z, p)
  else if String.eqb method "zou" then
    L1 <- rz_ci_at xy (Some n) conf_level 0 ;;
    U1 <- rz_ci_at xy (Some n) conf_level 1 ;;
    L2 <- rz_ci_at ab n2 conf_level 0 ;;
    U2 <- rz_ci_at ab n2 conf_level 1 ;;
    sl <- math_pow_half
            (fadd (fpow (fsub xy L1) 2) (fpow (fsub U2 ab) 2)) ;;
    let lower := fsub (fsub xy ab) sl in
    su <- math_pow_half
            (fadd (fpow (fsub U1 xy) 2) (fpow (fsub ab L2) 2)) ;;
    let upper := fadd (fsub xy ab) su in
    Return (lower, upper)
  else Raise (Exception "Wrong method!").

End CorrelationStats.

(** ** The formulas in the words of the specification

    Over the reals, for comparison with what the code computes. *)

Definition spec_steiger_den (xy xz yz : R) (n : Z) : R :=
  let determinant := 1 - xy ^ 2 - xz ^ 2 - yz ^ 2 + 2 * xy * xz * yz in
  let average := (xy + xz) / 2 in
  let cube := (1 - yz) ^ 3 in
  2 * IZR (n - 1) / IZR (n - 3) * determinant + average ^ 2 * cube.

Definition spec_steiger_e (xy xz yz : R) (n : Z) : R :=
  IZR (n - 1) * (1 + yz) / spec_steiger_den xy xz yz n.

(** The p-value of the statistic-based methods: one minus the cdf, doubled
    for a two-tailed test. *)
Definition p_value (cdf_at_stat : float) (twotailed : bool) : float :=
  let p := fsub (Fin 1) cdf_at_stat in
  if twotailed then fmul p (Fin 2) else p.

(** ** The command-line sweep

    The [__main__] block, after its arguments are parsed: [n] is an int,
    [lc_max], [midval] and [confidence_thresh] are floats.  What it prints
    is modelled by the value handed to the format ["%0.3f"]. *)

Section Sweep.

Variable t_cdf : float -> Z -> float.

(** [numpy.arange(start, stop, step)], as the list of its values. *)
Variable np_arange : float -> float -> float -> list float.

(** The call [dependent_corr(i, i + lc, midval, n)] of the sweep: the
    defaults [twotailed=False] and [method='steiger'] apply, and [xy], [xz]
    are numpy scalars, so that the quotients whose divisor is built from
    them are numpy's: nothing is raised on a zero divisor.  The quotient
    [2 * (n - 1)/(n - 3)] is still one of two ints. *)
Definition dependent_corr_np (xy xz yz : float) (n : Z)
  : result (float * float) :=
  let d := fsub xy xz in
  let determin :=
    fadd
      (fsub (fsub (fsub (Fin 1) (fpow xy 2)) (fpow xz 2)) (fpow yz 2))
      (fmul (fmul (fmul (Fin 2) xy) xz) yz) in
  let av := fdiv (fadd xy xz) (Fin 2) in
  let cube :=
    fmul (fmul (fsub (Fin 1) yz) (fsub (Fin 1) yz)) (fsub (Fin 1) yz) in
  let top := fmul (Fin (IZR (n - 1))) (fadd (Fin 1) yz) in
  c <- int_truediv (2 * (n - 1)) (n - 3) ;;
  let e := fdiv top (fadd (fmul c determin) (fmul (fpow av 2) cube)) in
  if flt e (Fin 0) then Return (NaN, NaN)
  else
    let t2 := fmul d (np_sqrt e) in
    let p := fsub (Fin 1) (t_cdf (fabs t2) (n - 2)) in
    Return (t2, p).

(** How the script ends: a line is printed, or [print] finds the name
    [lc] unbound, or an exception of [dependent_corr] goes through. *)
Inductive outcome : Type :=
| Printed (lc : float)
| NameError
| Uncaught (e : exn).

(** The inner [for]: [true] when it was left by [break], with [done] set. *)
Fixpoint inner_loop (grid : list float) (lc midval : float) (n : Z)
    (confidence_thresh : float) : result bool :=
  match grid with
  | [] => Return false
  | i :: grid' =>
      r <- dependent_corr_np i (fadd i lc) midval n ;;
      if flt confidence_thresh (snd r) then Return true
      else inner_loop grid' lc midval n confidence_thresh
  end.

(** The outer [for], followed by the [print]; [bound] is the value of [lc]
    left by the iterations already made. *)
Fixpoint outer_loop (grid : list float) (bound : option float)
    (midval : float) (n : Z) (confidence_thresh : float) : outcome :=
  match grid with
  | [] =>
      match bound with
      | Some lc => Printed lc
      | None => NameError
      end
  | lc :: grid' =>
      match
        inner_loop (np_arange (Fin 0) (fsub (Fin 1) lc) (Fin (1 / 100)))
          lc midval n confidence_thresh
      with
      | Raise e => Uncaught e
      | Return true => Printed lc
      | Return false =>
          outer_loop grid' (Some lc) midval n confidence_thresh
      end
  end.

Definition sweep (n : Z) (lc_max midval confidence_thresh : float)
  : outcome :=
  outer_loop (np_arange lc_max (Fin 0) (Fin (- (1 / 1000)))) None
    midval n confidence_thresh.

End Sweep.

(** ** The module over binary64 arithmetic

    The same functions, with the arithmetic of the machine as a
    parameter: [arith] gives the result of each floating-point operation
    (rounded, possibly an infinity or nan), and the functions below add what
    Python does around it.  A value [Fin x] is the double of real value
    [x]; [Fin 0] stands for both zeros, which no operation used here tells
    apart (Python raises on a zero divisor).  Nothing is assumed of
    [arith] unless a theorem asks for [arith_ok]. *)

Definition is_zero (a : float) : bool :=
  match a with
  | Fin x => Reqb x 0
  | _ => false
  end.

Module FP.

Record arith : Type := {
  f_add : float -> float -> float;
  f_sub : float -> float -> float;
  f_mul : float -> float -> float;
  (** the quotient by a divisor that is not zero *)
  f_div : float -> float -> float;
  (** C's [pow(x, k)] for an integer [k]: an infinity on overflow *)
  f_pow : float -> nat -> float;
  (** C's [pow(x, .5)] for [x >= 0] *)
  f_pow_half : float -> float;
  (** [numpy.sqrt] *)
  f_sqrt : float -> float;
  f_atanh : float -> float;
  f_tanh : float -> float;
  (** the double nearest to an int: an infinity when it is too large *)
  f_of_int : Z -> float;
  (** the double nearest to the quotient of two ints, the second not 0:
      an infinity when it is too large *)
  f_int_quot : Z -> Z -> float;
  (** the double a decimal literal denotes *)
  f_lit : R -> float
}.

(** Facts of IEEE 754 binary64 arithmetic (round to nearest) that some
    theorems rest on.  [sq_one]: no double other than 1 and -1 has a
    square that rounds to 1.  [sub_prod_nonzero]: for doubles [y1], [y2]
    other than 1, [1 - y1] and [1 - y2] are at least 2^-53 in magnitude,
    so that their product does not underflow to zero. *)
Record arith_ok (A : arith) : Prop := {
  sub_self : forall x : R, f_sub A (Fin x) (Fin x) = Fin 0;
  sub_one_finite : forall y : R, exists d : R, f_sub A (Fin 1) (Fin y) = Fin d;
  sub_one_half : f_sub A (Fin 1) (Fin (1 / 2)) = Fin (1 / 2);
  mul_half_two : f_mul A (Fin (1 / 2)) (Fin 2) = Fin 1;
  mul_zero_l : forall y : R, f_mul A (Fin 0) (Fin y) = Fin 0;
  mul_zero_r : forall y : R, f_mul A (Fin y) (Fin 0) = Fin 0;
  sqrt_finite :
    forall x : R, 0 <= x -> exists y : R, f_sqrt A (Fin x) = Fin y;
  pow_one : f_pow A (Fin 1) 2 = Fin 1;
  pow_minus_one : f_pow A (Fin (-1)) 2 = Fin 1;
  sq_one : forall x : R, f_pow A (Fin x) 2 = Fin 1 -> x = 1 \/ x = -1;
  sub_prod_nonzero :
    forall y1 y2 : R, y1 <> 1 -> y2 <> 1 ->
    is_zero (f_mul A (f_sub A (Fin 1) (Fin y1)) (f_sub A (Fin 1) (Fin y2)))
    = false
}.

Section Functions.

Variable A : arith.

(** [scipy.stats.norm.ppf] and [scipy.stats.t.cdf]; the latter is handed
    the int [n - 2] and may fail on it. *)
Variable norm_ppf : float -> float.
Variable t_cdf : float -> Z -> result float.

(** [a / b] on Python floats. *)
Definition py_div (a b : float) : result float :=
  if is_zero b then Raise ZeroDivisionError else Return (f_div A a b).

(** [a ** k] and [math.pow(a, k)] for the integer exponents of the
    source: an overflow is an [OverflowError]. *)
Definition py_pow (a : float) (k : nat) : result float :=
  match a, f_pow A a k with
  | Fin _, Inf _ => Raise OverflowError
  | _, v => Return v
  end.

(** The conversion of an int operand of a float operation. *)
Definition py_float (n : Z) : result float :=
  match f_of_int A n with
  | Inf _ => Raise OverflowError
  | v => Return v
  end.

(** True division of two ints. *)
Definition int_truediv (a b : Z) : result float :=
  if (b =? 0)%Z then Raise ZeroDivisionError
  else
    match f_int_quot A a b with
    | Inf _ => Raise OverflowError
    | v => Return v
    end.

(** [math.pow(a, .5)] *)
Definition math_pow_half (a : float) : result float :=
  match a with
  | Fin x => if Rltb x 0 then Raise ValueError else Return (f_pow_half A a)
  | Inf _ => Return (Inf false)
  | NaN => Return NaN
  end.

Definition math_atanh (a : float) : result float :=
  match a with
  | Fin x =>
      if Rltb (-1) x && Rltb x 1 then Return (f_atanh A a)
      else Raise ValueError
  | Inf _ => Raise ValueError
  | NaN => Return NaN
  end.

Definition math_tanh (o : pyobj) : result pyobj :=
  match o with
  | PFloat f => Return (PFloat (f_tanh A f))
  | PTuple _ => Raise TypeError
  end.

Definition rz_ci (r : float) (n : option Z) (conf_level : float)
  : result pyobj :=
  k <- int_sub n 3 ;;
  q <- int_truediv 1 k ;;
  zr_se <- math_pow_half q ;;
  h <- py_div (f_sub A (Fin 1) conf_level) (Fin 2) ;;
  let moe := f_mul A (norm_ppf (f_sub A (Fin 1) h)) zr_se in
  a <- math_atanh r ;;
  let zu := f_add A a moe in
  a' <- math_atanh r ;;
  let zl := f_sub A a' moe in
  math_tanh (PTuple [zl; zu]).

Definition rz_ci_at (r : float) (n : option Z) (conf_level : float)
    (i : nat) : result float :=
  o <- rz_ci r n conf_level ;; getitem o i.

(** The numerator and the denominator of [rho_rxy_rxz], from the powers
    [p1 = pow(rxy,2)], [p2 = pow(rxz,2)], [p3 = pow(ryz,2)] and
    [p4 = pow(ryz,3)]. *)
Definition rho_num (rxy rxz ryz p1 p2 p3 p4 : float) : float :=
  f_add A
    (f_mul A (f_sub A ryz (f_mul A (f_mul A (Fin (1 / 2)) rxy) rxz))
             (f_sub A (f_sub A (f_sub A (Fin 1) p1) p2) p3))
    p4.

Definition rho_den (p1 p2 : float) : float :=
  f_mul A (f_sub A (Fin 1) p1) (f_sub A (Fin 1) p2).

Definition rho_rxy_rxz (rxy rxz ryz : float) : result float :=
  p1 <- py_pow rxy 2 ;;
  p2 <- py_pow rxz 2 ;;
  p3 <- py_pow ryz 2 ;;
  p4 <- py_pow ryz 3 ;;
  let num := rho_num rxy rxz ryz p1 p2 p3 p4 in
  q1 <- py_pow rxy 2 ;;
  q2 <- py_pow rxz 2 ;;
  let den := rho_den q1 q2 in
  py_div num den.

(** Lines 47 to 50 of [dependent_corr]: the quantity [e]. *)
Definition steiger_e (xy xz yz : float) (n : Z) : result float :=
  x2 <- py_pow xy 2 ;;
  z2 <- py_pow xz 2 ;;
  y2 <- py_pow yz 2 ;;
  let determin :=
    f_add A
      (f_sub A (f_sub A (f_sub A (Fin 1) x2) z2) y2)
      (f_mul A (f_mul A (f_mul A (Fin 2) xy) xz) yz) in
  av <- py_div (f_add A xy xz) (Fin 2) ;;
  let cube :=
    f_mul A (f_mul A (f_sub A (Fin 1) yz) (f_sub A (Fin 1) yz))
          (f_sub A (Fin 1) yz) in
  n1 <- py_float (n - 1) ;;
  let top := f_mul A n1 (f_add A (Fin 1) yz) in
  c <- int_truediv (2 * (n - 1)) (n - 3) ;;
  av2 <- py_pow av 2 ;;
  py_div top (f_add A (f_mul A c determin) (f_mul A av2 cube)).

Definition dependent_corr (xy xz yz : float) (n : Z) (twotailed : bool)
    (conf_level : option float) (method : string)
  : result (float * float) :=
  if String.eqb method "steiger" then
    let d := f_sub A xy xz in
    e <- steiger_e xy xz yz n ;;
    if flt e (Fin 0) then Return (NaN, NaN)
    else
      let t2 := f_mul A d (f_sqrt A e) in
      c <- t_cdf (fabs t2) (n - 2) ;;
      let p := f_sub A (Fin 1) c in
      let p := if twotailed then f_mul A p (Fin 2) else p in
      Return (t2, p)
  else if String.eqb method "zou" then
    let conf_level :=
      match conf_level with
      | None => f_lit A (95 / 100)
      | Some c => c
      end in
    L1 <- rz_ci_at xy (Some n) conf_level 0 ;;
    U1 <- rz_ci_at xy (Some n) conf_level 1 ;;
    L2 <- rz_ci_at xz (Some n) conf_level 0 ;;
    U2 <- rz_ci_at xz (Some n) conf_level 1 ;;
    rho_r12_r13 <- rho_rxy_rxz xy xz yz ;;
    a1 <- py_pow (f_sub A xy L1) 2 ;;
    b1 <- py_pow (f_sub A U2 xz) 2 ;;
    sl <- math_pow_half
            (f_sub A (f_add A a1 b1)
                   (f_mul A (f_mul A (f_mul A (Fin 2) rho_r12_r13)
                                     (f_sub A xy L1))
                            (f_sub A U2 xz))) ;;
    let lower := f_sub A (f_sub A xy xz) sl in
    a2 <- py_pow (f_sub A U1 xy) 2 ;;
    b2 <- py_pow (f_sub A xz L2) 2 ;;
    su <- math_pow_half
            (f_sub A (f_add A a2 b2)
                   (f_mul A (f_mul A (f_mul A (Fin 2) rho_r12_r13)
                                     (f_sub A U1 xy))
                            (f_sub A xz L2))) ;;
    let upper := f_add A (f_sub A xy xz) su in
    Return (lower, upper)
  else Raise (Exception "Wrong method!").

End Functions.

End FP.

(** ** Stand-ins for scipy

    The cdf of a symmetric distribution on the reals and its quantile
    function, to run the module at concrete inputs. *)

Definition sample_cdf (a : float) : float :=
  match a with
  | Fin x => Fin ((1 + x / (1 + Rabs x)) / 2)
  | Inf s => Fin (if s then 0 else 1)
  | NaN => NaN
  end.

Definition sample_t_cdf (a : float) (df : Z) : float := sample_cdf a.

Definition sample_ppf (q : float) : float :=
  match q with
  | Fin q =>
      if Rltb 0 q && Rltb q 1
      then Fin ((2 * q - 1) / (1 - Rabs (2 * q - 1)))
      else if Reqb q 0 then Inf true
      else if Reqb q 1 then Inf false
      else NaN
  | _ => NaN
  end.

(** A stand-in for [scipy.stats.t.cdf] that never fails. *)
Definition sample_t_cdf_fp (a : float) (df : Z) : result float :=
  Return (sample_cdf a).

(** A stand-in for the arithmetic of the machine: exact on reals, except
    that a power or a quotient beyond 2^1024 overflows. *)
Definition sample_overflow (a : float) : float :=
  match a with
  | Fin x => if Rltb (IZR (2 ^ 1024)) (Rabs x) then Inf (Rltb x 0) else a
  | _ => a
  end.

Definition sample_pow (a : float) (k : nat) : float :=
  sample_overflow (fpow a k).

Definition sample_div (a b : float) : float := sample_overflow (fdiv a b).

Definition sample_arith : FP.arith :=
  {| FP.f_add := fadd;
     FP.f_sub := fsub;
     FP.f_mul := fmul;
     FP.f_div := sample_div;
     FP.f_pow := sample_pow;
     FP.f_pow_half := np_sqrt;
     FP.f_sqrt := np_sqrt;
     FP.f_atanh :=
       fun a => match a with Fin x => Fin (atanh x) | _ => NaN end;
     FP.f_tanh := ftanh;
     FP.f_of_int := fun n => Fin (IZR n);
     FP.f_int_quot := fun a b => Fin (IZR a / IZR b);
     FP.f_lit := Fin |}.

(** ** Deciding comparisons of reals *)

Lemma Rltb_true (x y : R) : x < y -> Rltb x y = true.
Proof. intros H. unfold Rltb. destruct (Rlt_dec x y); [reflexivity | contradiction]. Qed.

Lemma Rltb_false (x y : R) : y <= x -> Rltb x y = false.
Proof. intros H. unfold Rltb. destruct (Rlt_dec x y); [lra | reflexivity]. Qed.

Lemma Reqb_true (x y : R) : x = y -> Reqb x y = true.
Proof. intros H. unfold Reqb. destruct (Req_dec_T x y); [reflexivity | contradiction]. Qed.

Lemma Reqb_false (x y : R) : x <> y -> Reqb x y = false.
Proof. intros H. unfold Reqb. destruct (Req_dec_T x y); [contradiction | reflexivity]. Qed.

(** ** Arithmetic on finite values *)

Lemma py_div_fin (x y : R) :
  y <> 0 -> py_div (Fin x) (Fin y) = Return (Fin (x / y)).
Proof.
  intros Hy. unfold py_div, fdiv. now rewrite (Reqb_false _ _ Hy).
Qed.

Lemma py_div_zero (a : float) : py_div a (Fin 0) = Raise ZeroDivisionError.
Proof. unfold py_div. now rewrite Reqb_true. Qed.

Lemma int_truediv_ok (a b : Z) :
  b <> 0%Z -> int_truediv a b = Return (Fin (IZR a / IZR b)).
Proof.
  intros Hb. unfold int_truediv.
  destruct (Z.eqb_spec b 0); [contradiction | reflexivity].
Qed.

Lemma math_atanh_fin (x : R) :
  -1 < x < 1 -> math_atanh (Fin x) = Return (Fin (atanh x)).
Proof.
  intros [Hl Hu]. unfold math_atanh.
  now rewrite (Rltb_true _ _ Hl), (Rltb_true _ _ Hu).
Qed.

Lemma math_pow_half_fin (x : R) :
  0 <= x -> math_pow_half (Fin x) = Return (Fin (sqrt x)).
Proof. intros Hx. unfold math_pow_half. now rewrite Rltb_false. Qed.

Lemma np_sqrt_fin (x : R) : 0 <= x -> np_sqrt (Fin x) = Fin (sqrt x).
Proof. intros Hx. unfold np_sqrt. now rewrite Rltb_false. Qed.

Lemma np_log_fin (x : R) : 0 < x -> np_log (Fin x) = Fin (ln x).
Proof.
  intros Hx. unfold np_log.
  rewrite Rltb_false by lra. rewrite Reqb_false by lra. reflexivity.
Qed.



Lemma IZR_sample_size (n : Z) : (3 < n)%Z -> 0 < IZR (n - 3) /\ 2 < IZR (n - 1).
Proof.
  intros Hn. split.
  - apply (IZR_lt 0). lia.
  - apply (IZR_lt 2). lia.
Qed.

(** ** [rz_ci] *)

Section Properties.

Variable norm_ppf : float -> float.
Variable norm_cdf : float -> float.
Variable t_cdf : float -> Z -> float.

(** Whatever it is given, [rz_ci] ends in an exception: when every
    earlier step goes through, [math.tanh] is handed the tuple
    [(zl, zu)]. *)
Lemma rz_ci_never_returns (r : float) (n : option Z) (c : float) :
  exists e, rz_ci norm_ppf r n c = Raise e.
Proof.
  unfold rz_ci.
  destruct (int_sub n 3) as [k | e]; cbn [bind]; [ | now exists e].
  destruct (int_truediv 1 k) as [q | e]; cbn [bind]; [ | now exists e].
  destruct (math_pow_half q) as [s | e]; cbn [bind]; [ | now exists e].
  destruct (py_div (fsub (Fin 1) c) (Fin 2)) as [h | e]; cbn [bind];
    [ | now exists e].
  destruct (math_atanh r) as [a | e]; cbn [bind]; [ | now exists e].
  now exists TypeError.
Qed.

Lemma rz_ci_at_never_returns (r : float) (n : option Z) (c : float) (i : nat) :
  exists e, rz_ci_at norm_ppf r n c i = Raise e.
Proof.
  unfold rz_ci_at.
  destruct (rz_ci_never_returns r n c) as [e He].
  rewrite He. now exists e.
Qed.

(** With no sample size ([None]) the very first subtraction fails. *)
Lemma rz_ci_None (r c : float) : rz_ci norm_ppf r None c = Raise TypeError.
Proof. reflexivity. Qed.

(** C1, on the code: for every correlation [r] in (-1,1), every sample
    size [n > 3] and every confidence level in (0,1), [rz_ci] returns no
    pair at all: it raises [TypeError], because [tanh] is [math.tanh] and
    is applied to the tuple [(zl, zu)]. *)
Theorem rz_ci_raises_TypeError (r : R) (n : Z) (conf_level : R) :
  -1 < r < 1 -> (3 < n)%Z -> 0 < conf_level < 1 ->
  rz_ci norm_ppf (Fin r) (Some n) (Fin conf_level) = Raise TypeError.
Proof.
  intros Hr Hn Hc. unfold rz_ci. simpl int_sub. cbn [bind].
  rewrite int_truediv_ok by lia. cbn [bind].
  destruct (IZR_sample_size n Hn) as [H3 _].
  rewrite math_pow_half_fin.
  2:{ apply Rlt_le, Rdiv_lt_0_compat; lra. }
  cbn [bind fsub fneg fadd].
  rewrite py_div_fin by lra. cbn [bind].
  rewrite math_atanh_fin by exact Hr. cbn [bind].
  reflexivity.
Qed.

(** ** [dependent_corr] *)

(** The code's denominator of [e] is the specification's. *)
Lemma steiger_den_eq (xy xz yz : R) (n : Z) :
  n <> 3%Z ->
  IZR (2 * (n - 1)) / IZR (n - 3)
    * (1 + - xy ^ 2 + - xz ^ 2 + - yz ^ 2 + 2 * xy * xz * yz)
  + ((xy + xz) / 2) ^ 2 * ((1 + - yz) * (1 + - yz) * (1 + - yz))
  = spec_steiger_den xy xz yz n.
Proof.
  intros Hn. unfold spec_steiger_den. rewrite mult_IZR.
  assert (IZR (n - 3) <> 0) by (apply not_0_IZR; lia).
  field. assumption.
Qed.

(** The steiger branch on finite arguments, once [e] is defined. *)
Lemma dependent_corr_steiger_eval (xy xz yz : R) (n : Z) (twotailed : bool)
    (conf_level : option float) :
  n <> 3%Z -> spec_steiger_den xy xz yz n <> 0 ->
  dependent_corr norm_ppf t_cdf (Fin xy) (Fin xz) (Fin yz) n twotailed
    conf_level "steiger"
  = let e := spec_steiger_e xy xz yz n in
    if Rltb e 0 then Return (NaN, NaN)
    else
      let t2 := fmul (Fin (xy - xz)) (np_sqrt (Fin e)) in
      Return (t2, p_value (t_cdf (fabs t2) (n - 2)) twotailed).
Proof.
  intros Hn Hden. unfold dependent_corr.
  change (String.eqb "steiger" "steiger") with true. cbv iota.
  cbn [fsub fneg fadd fmul fpow].
  rewrite py_div_fin by lra. cbn [bind fpow].
  rewrite int_truediv_ok by lia. cbn [bind fmul fadd].
  rewrite steiger_den_eq by exact Hn.
  rewrite py_div_fin by exact Hden. cbn [bind flt].
  fold (spec_steiger_e xy xz yz n).
  reflexivity.
Qed.

(** C4: a method string outside {steiger, zou} makes [dependent_corr]
    raise [Exception('Wrong method!')], and one outside {fisher, zou}
    makes [independent_corr] raise it, whatever the other arguments. *)
Theorem wrong_method_raises (method : string)
    (xy xz yz : float) (n : Z) (n2 : option Z) (twotailed : bool)
    (conf_level : option float) (conf_level' : float) :
  (method <> "steiger"%string -> method <> "zou"%string ->
   dependent_corr norm_ppf t_cdf xy xz yz n twotailed conf_level method
   = Raise (Exception "Wrong method!"))
  /\
  (method <> "fisher"%string -> method <> "zou"%string ->
   independent_corr norm_ppf norm_cdf xy xz n n2 twotailed conf_level'
     method
   = Raise (Exception "Wrong method!")).
Proof.
  split; intros H1 H2.
  - unfold dependent_corr.
    destruct (String.eqb_spec method "steiger"); [contradiction | ].
    destruct (String.eqb_spec method "zou"); [contradiction | ].
    reflexivity.
  - unfold independent_corr.
    destruct (String.eqb_spec method "fisher"); [contradiction | ].
    destruct (String.eqb_spec method "zou"); [contradiction | ].
    reflexivity.
Qed.

(** C9: with method 'zou' the result of [dependent_corr] is the same for
    any two values of [twotailed]; with method 'steiger' it is the same
    for any two values of [conf_level]. *)
Theorem dependent_corr_ignored_parameters (xy xz yz : float) (n : Z) :
  (forall (conf_level : option float) (twotailed twotailed' : bool),
     dependent_corr norm_ppf t_cdf xy xz yz n twotailed conf_level "zou"
     = dependent_corr norm_ppf t_cdf xy xz yz n twotailed' conf_level "zou")
  /\
  (forall (twotailed : bool) (conf_level conf_level' : option float),
     dependent_corr norm_ppf t_cdf xy xz yz n twotailed conf_level "steiger"
     = dependent_corr norm_ppf t_cdf xy xz yz n twotailed conf_level'
         "steiger").
Proof.
  split; intros; reflexivity.
Qed.

(** ** [independent_corr] *)

(** The fisher branch on correlations in (-1,1) and sample sizes
    other than 3 whose standard error is positive. *)
Lemma independent_corr_fisher_eval (xy ab : R) (n : Z) (n2 : option Z)
    (twotailed : bool) (conf_level : float) :
  let m := match n2 with None => n | Some m => m end in
  -1 < xy < 1 -> -1 < ab < 1 -> n <> 3%Z -> m <> 3%Z ->
  0 < 1 / IZR (n - 3) + 1 / IZR (m - 3) ->
  independent_corr norm_ppf norm_cdf (Fin xy) (Fin ab) n n2 twotailed
    conf_level "fisher"
  = let diff :=
      5 / 10 * ln ((1 + xy) / (1 - xy)) - 5 / 10 * ln ((1 + ab) / (1 - ab)) in
    let z := Rabs (diff / sqrt (1 / IZR (n - 3) + 1 / IZR (m - 3))) in
    Return (Fin z, p_value (norm_cdf (Fin z)) twotailed).
Proof.
  intros m Hxy Hab Hn Hm Hse. unfold independent_corr.
  change (String.eqb "fisher" "fisher") with true. cbv iota.
  cbn [fsub fneg fadd].
  rewrite !py_div_fin by lra. cbn [bind].
  rewrite !np_log_fin by (apply Rdiv_lt_0_compat; lra).
  fold m.
  rewrite (int_truediv_ok 1 (n - 3)) by lia. cbn [bind].
  rewrite (int_truediv_ok 1 (m - 3)) by lia. cbn [bind fadd fmul fneg].
  rewrite np_sqrt_fin by lra.
  unfold fdiv. rewrite Reqb_false.
  2:{ apply Rgt_not_eq, sqrt_lt_R0, Hse. }
  reflexivity.
Qed.

Lemma standard_error_positive (n m : Z) :
  (3 < n)%Z -> (3 < m)%Z -> 0 < 1 / IZR (n - 3) + 1 / IZR (m - 3).
Proof.
  intros Hn Hm.
  destruct (IZR_sample_size n Hn) as [H1 _].
  destruct (IZR_sample_size m Hm) as [H2 _].
  apply Rplus_lt_0_compat; apply Rdiv_lt_0_compat; lra.
Qed.

(** C7: for xy, ab in (-1,1) and n, n2 > 3, the call
    [independent_corr(xy, ab, n, n2, method='fisher')] and the swapped
    call [independent_corr(ab, xy, n2, n, method='fisher')] both return,
    with the same z statistic. *)
Theorem independent_corr_fisher_symmetric (xy ab : R) (n n2 : Z)
    (twotailed : bool) (conf_level : float) :
  -1 < xy < 1 -> -1 < ab < 1 -> (3 < n)%Z -> (3 < n2)%Z ->
  exists z p p',
    independent_corr norm_ppf norm_cdf (Fin xy) (Fin ab) n (Some n2)
      twotailed conf_level "fisher" = Return (z, p)
    /\
    independent_corr norm_ppf norm_cdf (Fin ab) (Fin xy) n2 (Some n)
      twotailed conf_level "fisher" = Return (z, p').
Proof.
  intros Hxy Hab Hn Hn2.
  pose proof (standard_error_positive n n2 Hn Hn2) as Hse.
  pose proof (standard_error_positive n2 n Hn2 Hn) as Hse'.
  rewrite (independent_corr_fisher_eval xy ab n (Some n2)) by (lia || assumption).
  rewrite (independent_corr_fisher_eval ab xy n2 (Some n)) by (lia || assumption).
  cbv zeta. do 3 eexists. split; [reflexivity | ].
  apply f_equal. apply (f_equal2 pair); [ | reflexivity]. apply f_equal.
  rewrite (Rplus_comm (1 / IZR (n2 - 3))).
  rewrite <- Rabs_Ropp. apply f_equal. unfold Rdiv. ring.
Qed.


End Properties.

(** ** The theorems at concrete inputs *)

Lemma rz_ci_raises_TypeError_witness :
  rz_ci sample_ppf (Fin (1 / 2)) (Some 10%Z) (Fin (95 / 100))
  = Raise TypeError.
Proof.
  apply rz_ci_raises_TypeError; [lra | lia | lra].
Defined.






Lemma steiger_den_half_half_0 : spec_steiger_den (1 / 2) (1 / 2) 0 5 = 9 / 4.
Proof.
  unfold spec_steiger_den. cbv zeta.
  change (5 - 1)%Z with 4%Z. change (5 - 3)%Z with 2%Z. field.
Qed.

Lemma steiger_e_half_half_0 : spec_steiger_e (1 / 2) (1 / 2) 0 5 = 16 / 9.
Proof.
  unfold spec_steiger_e. rewrite steiger_den_half_half_0.
  change (5 - 1)%Z with 4%Z. field.
Qed.

Lemma sample_t_cdf_zero (df : Z) : sample_t_cdf (Fin 0) df = Fin (1 / 2).
Proof.
  unfold sample_t_cdf, sample_cdf. rewrite Rabs_R0. f_equal. field.
Qed.

Lemma wrong_method_raises_witness :
  dependent_corr sample_ppf sample_t_cdf (Fin (1 / 2)) (Fin 0) (Fin 0) 10
    false None "bogus"
  = Raise (Exception "Wrong method!")
  /\
  independent_corr sample_ppf sample_cdf (Fin (1 / 2)) (Fin 0) 10 None true
    (Fin (95 / 100)) "bogus"
  = Raise (Exception "Wrong method!").
Proof.
  destruct (wrong_method_raises sample_ppf sample_cdf sample_t_cdf "bogus"
              (Fin (1 / 2)) (Fin 0) (Fin 0) 10 None false None
              (Fin (95 / 100))) as [Hd _].
  destruct (wrong_method_raises sample_ppf sample_cdf sample_t_cdf "bogus"
              (Fin (1 / 2)) (Fin 0) (Fin 0) 10 None true None
              (Fin (95 / 100))) as [_ Hi].
  split; [apply Hd | apply Hi]; discriminate.
Defined.

Lemma independent_corr_fisher_symmetric_witness :
  exists z p p',
    independent_corr sample_ppf sample_cdf (Fin (56 / 100)) (Fin (588 / 1000))
      100 (Some 353%Z) true (Fin (95 / 100)) "fisher" = Return (z, p)
    /\
    independent_corr sample_ppf sample_cdf (Fin (588 / 1000)) (Fin (56 / 100))
      353 (Some 100%Z) true (Fin (95 / 100)) "fisher" = Return (z, p').
Proof.
  apply independent_corr_fisher_symmetric; lra || lia.
Defined.



(** ** Further properties of the module *)

Lemma py_div_two (a : float) : py_div a (Fin 2) = Return (fdiv a (Fin 2)).
Proof. unfold py_div. now rewrite Reqb_false by lra. Qed.

Lemma py_div_returns (a b v : float) : py_div a b = Return v -> v = fdiv a b.
Proof.
  unfold py_div. destruct b as [y | s |].
  - destruct (Reqb y 0); [discriminate | ]. intros H. now injection H.
  - intros H. now injection H.
  - intros H. now injection H.
Qed.

Lemma math_atanh_out_of_domain (x : R) :
  x <= -1 \/ 1 <= x -> math_atanh (Fin x) = Raise ValueError.
Proof.
  intros [H | H]; unfold math_atanh.
  - now rewrite (Rltb_false (-1) x) by lra.
  - rewrite (Rltb_false x 1) by lra. now rewrite andb_false_r.
Qed.

Section MoreProperties.

Variable norm_ppf : float -> float.
Variable norm_cdf : float -> float.
Variable t_cdf : float -> Z -> float.
Variable np_arange : float -> float -> float -> list float.

(** [rz_ci] up to its call of [atanh], for a sample size above 3. *)
Lemma rz_ci_up_to_atanh (r c : float) (n : Z) :
  (3 < n)%Z ->
  exists moe : float,
    rz_ci norm_ppf r (Some n) c
    = (a <- math_atanh r ;; a' <- math_atanh r ;;
       math_tanh (PTuple [fsub a' moe; fadd a moe])).
Proof.
  intros Hn. unfold rz_ci. cbn [int_sub bind].
  rewrite int_truediv_ok by lia. cbn [bind].
  destruct (IZR_sample_size n Hn) as [H3 _].
  rewrite math_pow_half_fin.
  2:{ apply Rlt_le, Rdiv_lt_0_compat; lra. }
  cbn [bind]. rewrite py_div_two. cbn [bind].
  eexists. reflexivity.
Qed.

Lemma rz_ci_at_TypeError (x : R) (c : float) (n : Z) (i : nat) :
  -1 < x < 1 -> (3 < n)%Z ->
  rz_ci_at norm_ppf (Fin x) (Some n) c i = Raise TypeError.
Proof.
  intros Hx Hn. unfold rz_ci_at.
  destruct (rz_ci_up_to_atanh (Fin x) c n Hn) as [moe ->].
  rewrite math_atanh_fin by exact Hx. reflexivity.
Qed.

(** X2: [dependent_corr] with method 'zou' never returns an interval: it
    always ends in an exception, and for xy in (-1,1) and n > 3 the
    exception is the [TypeError] of [rz_ci]. *)
Theorem dependent_corr_zou_never_returns (xy xz yz : float) (n : Z)
    (twotailed : bool) (conf_level : option float) :
  (exists e : exn,
     dependent_corr norm_ppf t_cdf xy xz yz n twotailed conf_level "zou"
     = Raise e)
  /\
  (forall x : R, xy = Fin x -> -1 < x < 1 -> (3 < n)%Z ->
     dependent_corr norm_ppf t_cdf xy xz yz n twotailed conf_level "zou"
     = Raise TypeError).
Proof.
  unfold dependent_corr.
  change (String.eqb "zou" "steiger") with false.
  change (String.eqb "zou" "zou") with true. cbv iota.
  split.
  - match goal with
    | |- context [rz_ci_at norm_ppf xy (Some n) ?c 0%nat] =>
        destruct (rz_ci_at_never_returns norm_ppf xy (Some n) c 0) as [e He]
    end.
    exists e. cbv zeta. rewrite He. reflexivity.
  - intros x -> Hx Hn. cbv zeta.
    rewrite rz_ci_at_TypeError by assumption. reflexivity.
Qed.

(** X3: [independent_corr] with method 'zou' never returns an interval
    either; for xy in (-1,1) and n > 3 it raises [TypeError], whatever
    [n2] is. *)
Theorem independent_corr_zou_never_returns (xy ab : float) (n : Z)
    (n2 : option Z) (twotailed : bool) (conf_level : float) :
  (exists e : exn,
     independent_corr norm_ppf norm_cdf xy ab n n2 twotailed conf_level "zou"
     = Raise e)
  /\
  (forall x : R, xy = Fin x -> -1 < x < 1 -> (3 < n)%Z ->
     independent_corr norm_ppf norm_cdf xy ab n n2 twotailed conf_level "zou"
     = Raise TypeError).
Proof.
  unfold independent_corr.
  change (String.eqb "zou" "fisher") with false.
  change (String.eqb "zou" "zou") with true. cbv iota.
  split.
  - destruct (rz_ci_at_never_returns norm_ppf xy (Some n) conf_level 0)
      as [e He].
    exists e. rewrite He. reflexivity.
  - intros x -> Hx Hn.
    rewrite rz_ci_at_TypeError by assumption. reflexivity.
Qed.

(** X6: in the steiger test the two-tailed call returns the statistic of
    the one-tailed call and twice its p-value, and raises exactly when the
    one-tailed call does. *)
Theorem dependent_corr_steiger_two_tailed (xy xz yz : float) (n : Z)
    (conf_level : option float) :
  dependent_corr norm_ppf t_cdf xy xz yz n true conf_level "steiger"
  = (r <- dependent_corr norm_ppf t_cdf xy xz yz n false conf_level
            "steiger" ;;
     Return (fst r, fmul (snd r) (Fin 2))).
Proof.
  unfold dependent_corr.
  change (String.eqb "steiger" "steiger") with true. cbv iota.
  rewrite py_div_two. cbn [bind].
  destruct (int_truediv (2 * (n - 1)) (n - 3)) as [c | e]; cbn [bind];
    [ | reflexivity].
  match goal with
  | |- context [py_div ?a ?b] => destruct (py_div a b) as [v | e]
  end; cbn [bind]; [ | reflexivity].
  destruct (flt v (Fin 0)); reflexivity.
Qed.

(** X7: the same for the fisher test of [independent_corr]. *)
Theorem independent_corr_fisher_two_tailed (xy ab : float) (n : Z)
    (n2 : option Z) (conf_level : float) :
  independent_corr norm_ppf norm_cdf xy ab n n2 true conf_level "fisher"
  = (r <- independent_corr norm_ppf norm_cdf xy ab n n2 false conf_level
            "fisher" ;;
     Return (fst r, fmul (snd r) (Fin 2))).
Proof.
  unfold independent_corr.
  change (String.eqb "fisher" "fisher") with true. cbv iota.
  destruct (py_div (fadd (Fin 1) xy) (fsub (Fin 1) xy)) as [q1 | e];
    cbn [bind]; [ | reflexivity].
  destruct (py_div (fadd (Fin 1) ab) (fsub (Fin 1) ab)) as [q2 | e];
    cbn [bind]; [ | reflexivity].
  destruct (int_truediv 1 (n - 3)) as [v1 | e]; cbn [bind]; [ | reflexivity].
  destruct (int_truediv 1 _) as [v2 | e]; cbn [bind]; reflexivity.
Qed.

Lemma fadd_comm (a b : float) : fadd a b = fadd b a.
Proof.
  destruct a as [x | s |], b as [y | s' |]; cbn [fadd]; try reflexivity.
  - apply f_equal, Rplus_comm.
  - destruct s, s'; reflexivity.
Qed.

Lemma fsub_inf_fin (s : bool) (y : R) : fsub (Inf s) (Fin y) = Inf s.
Proof. reflexivity. Qed.

Lemma fsub_fin_inf (s : bool) (y : R) : fsub (Fin y) (Inf s) = Inf (negb s).
Proof. reflexivity. Qed.

Lemma fdiv_inf_nonneg (s : bool) (y : R) :
  0 <= y -> fdiv (Inf s) (Fin y) = Inf s.
Proof.
  intros Hy. cbn [fdiv]. rewrite Rltb_false by exact Hy.
  now rewrite xorb_false_r.
Qed.

(** X8: the fisher test raises [ZeroDivisionError] when xy = 1, when
    ab = 1, and, for real xy and ab other than 1, when n = 3 or the second
    sample size in force is 3. *)
Theorem independent_corr_fisher_division_fails (x a : R) (n : Z)
    (n2 : option Z) (twotailed : bool) (conf_level : float) :
  (forall ab : float,
     independent_corr norm_ppf norm_cdf (Fin 1) ab n n2 twotailed conf_level
       "fisher" = Raise ZeroDivisionError)
  /\
  (x <> 1 ->
   independent_corr norm_ppf norm_cdf (Fin x) (Fin 1) n n2 twotailed
     conf_level "fisher" = Raise ZeroDivisionError)
  /\
  (x <> 1 -> a <> 1 ->
   n = 3%Z \/ match n2 with None => n | Some m => m end = 3%Z ->
   independent_corr norm_ppf norm_cdf (Fin x) (Fin a) n n2 twotailed
     conf_level "fisher" = Raise ZeroDivisionError).
Proof.
  unfold independent_corr.
  change (String.eqb "fisher" "fisher") with true. cbv iota.
  repeat split.
  - intros ab. cbn [fsub fneg fadd].
    replace (1 + - (1)) with 0 by ring. now rewrite py_div_zero.
  - intros Hx. cbn [fsub fneg fadd].
    rewrite py_div_fin by lra. cbn [bind].
    replace (1 + - (1)) with 0 by ring. now rewrite py_div_zero.
  - intros Hx Ha Hn. cbn [fsub fneg fadd].
    rewrite !py_div_fin by lra. cbn [bind].
    unfold int_truediv.
    destruct (Z.eqb_spec (n - 3) 0) as [H | H]; [reflexivity | ].
    cbn [bind].
    destruct (Z.eqb_spec (match n2 with None => n | Some m => m end - 3) 0)
      as [H' | H']; [reflexivity | lia].
Qed.

(** X9: a correlation equal to -1 does not make the fisher test fail: for
    n, n2 > 3 and the other correlation in (-1,1) the z statistic returned
    is +infinity, and when both are -1 it is nan. *)
Theorem independent_corr_fisher_minus_one (a : R) (n n2 : Z)
    (twotailed : bool) (conf_level : float) :
  (3 < n)%Z -> (3 < n2)%Z ->
  (-1 < a < 1 ->
   independent_corr norm_ppf norm_cdf (Fin (-1)) (Fin a) n (Some n2)
     twotailed conf_level "fisher"
   = Return (Inf false, p_value (norm_cdf (Inf false)) twotailed)
   /\
   independent_corr norm_ppf norm_cdf (Fin a) (Fin (-1)) n (Some n2)
     twotailed conf_level "fisher"
   = Return (Inf false, p_value (norm_cdf (Inf false)) twotailed))
  /\
  independent_corr norm_ppf norm_cdf (Fin (-1)) (Fin (-1)) n (Some n2)
    twotailed conf_level "fisher"
  = Return (NaN, p_value (norm_cdf NaN) twotailed).
Proof.
  intros Hn Hn2.
  pose proof (standard_error_positive n n2 Hn Hn2) as Hse.
  assert (Hlog : np_log (Fin ((1 + -1) / (1 + - -1))) = Inf true).
  { replace ((1 + -1) / (1 + - -1)) with 0 by (field; lra).
    unfold np_log. rewrite Rltb_false by lra. now rewrite Reqb_true. }
  assert (Hhalf : fmul (Fin (5 / 10)) (Inf true) = Inf true).
  { cbn [fmul]. rewrite Reqb_false by lra. now rewrite Rltb_false by lra. }
  unfold independent_corr.
  change (String.eqb "fisher" "fisher") with true. cbv iota.
  cbn [fsub fneg fadd].
  rewrite !int_truediv_ok by lia.
  split; [intros Ha; split | ].
  - rewrite !py_div_fin by lra. cbn [bind].
    rewrite Hlog, Hhalf.
    rewrite np_log_fin by (apply Rdiv_lt_0_compat; lra).
    cbn [fmul fadd]. rewrite np_sqrt_fin by lra.
    rewrite fsub_inf_fin, fdiv_inf_nonneg by apply sqrt_pos.
    reflexivity.
  - rewrite !py_div_fin by lra. cbn [bind].
    rewrite Hlog, Hhalf.
    rewrite np_log_fin by (apply Rdiv_lt_0_compat; lra).
    cbn [fmul fadd]. rewrite np_sqrt_fin by lra.
    rewrite fsub_fin_inf, fdiv_inf_nonneg by apply sqrt_pos.
    reflexivity.
  - rewrite !py_div_fin by lra. cbn [bind].
    rewrite Hlog, Hhalf. reflexivity.
Qed.

(** X11: the fisher test does not depend on the order of the two sample
    sizes: exchanging n and n2 gives the same result or the same
    exception. *)
Theorem independent_corr_fisher_sizes_swap (xy ab : float) (n n2 : Z)
    (twotailed : bool) (conf_level : float) :
  independent_corr norm_ppf norm_cdf xy ab n (Some n2) twotailed conf_level
    "fisher"
  = independent_corr norm_ppf norm_cdf xy ab n2 (Some n) twotailed
      conf_level "fisher".
Proof.
  unfold independent_corr.
  change (String.eqb "fisher" "fisher") with true. cbv iota.
  destruct (py_div (fadd (Fin 1) xy) (fsub (Fin 1) xy)) as [q1 | e];
    cbn [bind]; [ | reflexivity].
  destruct (py_div (fadd (Fin 1) ab) (fsub (Fin 1) ab)) as [q2 | e];
    cbn [bind]; [ | reflexivity].
  unfold int_truediv.
  destruct (n - 3 =? 0)%Z, (n2 - 3 =? 0)%Z; cbn [bind]; try reflexivity.
  rewrite (fadd_comm (Fin (1 / IZR (n - 3)))). reflexivity.
Qed.

(** ** The sweep *)

(** X16: whenever [dependent_corr] (steiger, one-tailed) returns on
    Python floats, the call on numpy scalars returns the same pair: the
    two differ only where the former raises on a zero denominator. *)
Theorem dependent_corr_np_agrees (xy xz yz : float) (n : Z)
    (conf_level : option float) (r : float * float) :
  dependent_corr norm_ppf t_cdf xy xz yz n false conf_level "steiger"
  = Return r ->
  dependent_corr_np t_cdf xy xz yz n = Return r.
Proof.
  unfold dependent_corr, dependent_corr_np.
  change (String.eqb "steiger" "steiger") with true. cbv iota.
  rewrite py_div_two. cbn [bind].
  destruct (int_truediv (2 * (n - 1)) (n - 3)) as [c | e]; cbn [bind];
    [ | discriminate].
  match goal with
  | |- context [py_div ?a ?b] => destruct (py_div a b) as [v | e] eqn:Hv
  end; cbn [bind]; [ | discriminate].
  apply py_div_returns in Hv. subst v. intros H. exact H.
Qed.

Lemma outer_loop_bound_not_NameError (grid : list float) (b midval : float)
    (n : Z) (thresh : float) :
  outer_loop t_cdf np_arange grid (Some b) midval n thresh <> NameError.
Proof.
  revert b. induction grid as [ | l0 grid IH]; intros b; cbn [outer_loop].
  - discriminate.
  - destruct (inner_loop _ _ _ _ _ _) as [[ | ] | e];
      [discriminate | apply IH | discriminate].
Qed.

(** X18: the sweep ends in [NameError] (the name [lc] is unbound at the
    [print]) exactly when the outer grid is empty. *)
Theorem sweep_NameError_iff (n : Z) (lc_max midval confidence_thresh : float) :
  sweep t_cdf np_arange n lc_max midval confidence_thresh = NameError
  <-> np_arange lc_max (Fin 0) (Fin (- (1 / 1000))) = [].
Proof.
  unfold sweep.
  destruct (np_arange lc_max (Fin 0) (Fin (- (1 / 1000)))) as [ | l0 grid];
    cbn [outer_loop].
  - split; reflexivity.
  - split; [ | discriminate].
    destruct (inner_loop _ _ _ _ _ _) as [[ | ] | e]; try discriminate.
    intros H. exfalso.
    exact (outer_loop_bound_not_NameError _ _ _ _ _ H).
Qed.

End MoreProperties.

(** ** The further properties at concrete inputs *)

Lemma dependent_corr_zou_never_returns_witness :
  dependent_corr sample_ppf sample_t_cdf (Fin (396 / 1000)) (Fin (179 / 1000))
    (Fin (88 / 1000)) 3000 false None "zou"
  = Raise TypeError.
Proof.
  apply (proj2 (dependent_corr_zou_never_returns sample_ppf sample_t_cdf
                  (Fin (396 / 1000)) (Fin (179 / 1000)) (Fin (88 / 1000))
                  3000 false None) (396 / 1000));
    [reflexivity | lra | lia].
Defined.

Lemma independent_corr_zou_never_returns_witness :
  independent_corr sample_ppf sample_cdf (Fin (56 / 100)) (Fin (588 / 1000))
    100 (Some 353%Z) true (Fin (95 / 100)) "zou"
  = Raise TypeError.
Proof.
  apply (proj2 (independent_corr_zou_never_returns sample_ppf sample_cdf
                  (Fin (56 / 100)) (Fin (588 / 1000)) 100 (Some 353%Z)
                  true (Fin (95 / 100))) (56 / 100));
    [reflexivity | lra | lia].
Defined.

Lemma independent_corr_fisher_division_fails_witness :
  independent_corr sample_ppf sample_cdf (Fin 1) (Fin 0) 10 None true
    (Fin (95 / 100)) "fisher" = Raise ZeroDivisionError
  /\
  independent_corr sample_ppf sample_cdf (Fin (1 / 2)) (Fin 1) 10 None true
    (Fin (95 / 100)) "fisher" = Raise ZeroDivisionError
  /\
  independent_corr sample_ppf sample_cdf (Fin (1 / 2)) (Fin 0) 10 (Some 3%Z)
    true (Fin (95 / 100)) "fisher" = Raise ZeroDivisionError.
Proof.
  destruct (independent_corr_fisher_division_fails sample_ppf sample_cdf
              (1 / 2) 0 10 None true (Fin (95 / 100))) as [H1 [H2 _]].
  destruct (independent_corr_fisher_division_fails sample_ppf sample_cdf
              (1 / 2) 0 10 (Some 3%Z) true (Fin (95 / 100))) as [_ [_ H3]].
  split; [apply H1 | split].
  - apply H2. lra.
  - apply H3; [lra | lra | now right].
Defined.

Lemma independent_corr_fisher_minus_one_witness :
  independent_corr sample_ppf sample_cdf (Fin (-1)) (Fin 0) 10 (Some 10%Z)
    true (Fin (95 / 100)) "fisher"
  = Return (Inf false, p_value (sample_cdf (Inf false)) true)
  /\
  independent_corr sample_ppf sample_cdf (Fin (-1)) (Fin (-1)) 10 (Some 10%Z)
    true (Fin (95 / 100)) "fisher"
  = Return (NaN, p_value (sample_cdf NaN) true).
Proof.
  destruct (independent_corr_fisher_minus_one sample_ppf sample_cdf 0 10 10
              true (Fin (95 / 100))) as [H1 H2]; [lia | lia | ].
  split; [apply H1; lra | exact H2].
Defined.

Lemma steiger_half_half_0_one_tailed :
  dependent_corr sample_ppf sample_t_cdf (Fin (1 / 2)) (Fin (1 / 2)) (Fin 0) 5
    false None "steiger"
  = Return (Fin 0, Fin (1 / 2)).
Proof.
  rewrite dependent_corr_steiger_eval.
  2: lia.
  2:{ rewrite steiger_den_half_half_0. lra. }
  cbv zeta. rewrite steiger_e_half_half_0.
  rewrite Rltb_false by lra. rewrite np_sqrt_fin by lra. cbn [fmul fabs].
  replace ((1 / 2 - 1 / 2) * sqrt (16 / 9)) with 0 by ring.
  rewrite Rabs_R0, sample_t_cdf_zero.
  unfold p_value. cbn [fsub fneg fadd].
  apply f_equal, f_equal, f_equal. lra.
Qed.

Lemma dependent_corr_np_agrees_witness :
  dependent_corr_np sample_t_cdf (Fin (1 / 2)) (Fin (1 / 2)) (Fin 0) 5
  = Return (Fin 0, Fin (1 / 2)).
Proof.
  apply (dependent_corr_np_agrees sample_ppf sample_t_cdf _ _ _ _ None).
  exact steiger_half_half_0_one_tailed.
Defined.


(** ** The steiger test and [rho_rxy_rxz] over binary64 arithmetic *)

Section FloatingPoint.

Variable A : FP.arith.
Variable norm_ppf : float -> float.
Variable t_cdf : float -> Z -> result float.



(** C6, as the code has it: with t.cdf(0, n - 2) worth 1/2, for r, yz in
    (-1,1) and n > 3 such that the quantity [e] the code computes is a
    nonnegative finite number,
    [dependent_corr(r, r, yz, n, twotailed=True, method='steiger')]
    returns the statistic 0 and the p-value 1. *)
Theorem dependent_corr_steiger_identity (r yz : R) (n : Z)
    (conf_level : option float) (e : R) :
  FP.arith_ok A ->
  t_cdf (Fin 0) (n - 2) = Return (Fin (1 / 2)) ->
  -1 < r < 1 -> -1 < yz < 1 -> (3 < n)%Z ->
  FP.steiger_e A (Fin r) (Fin r) (Fin yz) n = Return (Fin e) -> 0 <= e ->
  FP.dependent_corr A norm_ppf t_cdf (Fin r) (Fin r) (Fin yz) n true
    conf_level "steiger"
  = Return (Fin 0, Fin 1).
Proof.
  intros Hok Hcdf _ _ _ He Hpos. unfold FP.dependent_corr.
  change (String.eqb "steiger" "steiger") with true. cbv iota zeta.
  rewrite He. cbn [bind flt]. rewrite Rltb_false by exact Hpos.
  rewrite (FP.sub_self A Hok).
  destruct (FP.sqrt_finite A Hok e Hpos) as [y ->].
  rewrite (FP.mul_zero_l A Hok). cbn [fabs]. rewrite Rabs_R0.
  rewrite Hcdf. cbn [bind].
  rewrite (FP.sub_one_half A Hok), (FP.mul_half_two A Hok). reflexivity.
Qed.



End FloatingPoint.

(** ** The sample arithmetic *)

Lemma overflow_threshold_large : 1 <= IZR (2 ^ 1024).
Proof. apply (IZR_le 1). intros H. vm_compute in H. discriminate. Qed.

Lemma overflow_threshold_two : 2 <= IZR (2 ^ 1024).
Proof. apply (IZR_le 2). intros H. vm_compute in H. discriminate. Qed.

Lemma pow_within_unit (x : R) (k : nat) : -1 <= x <= 1 -> Rabs (x ^ k) <= 1.
Proof.
  intros Hx. rewrite <- RPow_abs.
  rewrite <- (pow1 k). apply pow_incr. split; [apply Rabs_pos | ].
  apply Rabs_le. exact Hx.
Qed.

Lemma sample_overflow_small (x : R) :
  Rabs x <= IZR (2 ^ 1024) -> sample_overflow (Fin x) = Fin x.
Proof. intros Hx. unfold sample_overflow. now rewrite Rltb_false. Qed.

Lemma sample_overflow_large (x : R) :
  IZR (2 ^ 1024) < x -> sample_overflow (Fin x) = Inf false.
Proof.
  intros Hx. pose proof overflow_threshold_large.
  unfold sample_overflow. rewrite Rltb_true.
  - now rewrite Rltb_false by lra.
  - rewrite Rabs_pos_eq; lra.
Qed.

Lemma sample_pow_unit (x : R) (k : nat) :
  -1 <= x <= 1 -> sample_pow (Fin x) k = Fin (x ^ k).
Proof.
  intros Hx. unfold sample_pow. cbn [fpow]. apply sample_overflow_small.
  pose proof (pow_within_unit x k Hx). pose proof overflow_threshold_large.
  lra.
Qed.

Lemma sample_div_small (x y : R) :
  y <> 0 -> Rabs (x / y) <= IZR (2 ^ 1024) ->
  sample_div (Fin x) (Fin y) = Fin (x / y).
Proof.
  intros Hy Hq. unfold sample_div. cbn [fdiv]. rewrite (Reqb_false _ _ Hy).
  now apply sample_overflow_small.
Qed.

Lemma sample_div_large (x y : R) :
  y <> 0 -> IZR (2 ^ 1024) < x / y -> sample_div (Fin x) (Fin y) = Inf false.
Proof.
  intros Hy Hq. unfold sample_div. cbn [fdiv]. rewrite (Reqb_false _ _ Hy).
  now apply sample_overflow_large.
Qed.

Lemma sample_py_pow (x : R) (k : nat) :
  -1 <= x <= 1 -> FP.py_pow sample_arith (Fin x) k = Return (Fin (x ^ k)).
Proof.
  intros Hx. unfold FP.py_pow. cbn [FP.f_pow sample_arith].
  now rewrite sample_pow_unit.
Qed.

Lemma sample_arith_ok : FP.arith_ok sample_arith.
Proof.
  constructor; cbn [FP.f_sub FP.f_mul FP.f_sqrt FP.f_pow sample_arith].
  - intros x. cbn [fsub fneg fadd]. apply f_equal. ring.
  - intros y. eexists. reflexivity.
  - cbn [fsub fneg fadd]. apply f_equal. lra.
  - cbn [fmul]. apply f_equal. lra.
  - intros y. cbn [fmul]. apply f_equal. ring.
  - intros y. cbn [fmul]. apply f_equal. ring.
  - intros x Hx. exists (sqrt x). now apply np_sqrt_fin.
  - rewrite sample_pow_unit by lra. apply f_equal. ring.
  - rewrite sample_pow_unit by lra. apply f_equal. ring.
  - intros x. unfold sample_pow, sample_overflow. cbn [fpow].
    destruct (Rltb (IZR (2 ^ 1024)) (Rabs (x ^ 2))); [discriminate | ].
    intros H. injection H as H.
    assert (H' : (x - 1) * (x + 1) = 0).
    { replace ((x - 1) * (x + 1)) with (x ^ 2 - 1) by ring. lra. }
    apply Rmult_integral in H'. lra.
  - intros y1 y2 H1 H2. cbn [fsub fneg fadd fmul is_zero].
    apply Reqb_false. apply Rmult_integral_contrapositive_currified; lra.
Qed.

(** The sample arithmetic computes the two sides of the quotient [e]
    exactly. *)
Lemma sample_steiger_e_quotient (xy xz yz : R) (n : Z) :
  -1 <= xy <= 1 -> -1 <= xz <= 1 -> -1 <= yz <= 1 ->
  n <> 3%Z -> spec_steiger_den xy xz yz n <> 0 ->
  FP.steiger_e sample_arith (Fin xy) (Fin xz) (Fin yz) n
  = Return (sample_div (Fin (IZR (n - 1) * (1 + yz)))
              (Fin (spec_steiger_den xy xz yz n))).
Proof.
  intros Hxy Hxz Hyz Hn Hden. unfold FP.steiger_e.
  rewrite !sample_py_pow by assumption. cbn [bind].
  unfold FP.py_div, FP.py_float, FP.int_truediv.
  cbn [FP.f_add FP.f_sub FP.f_mul FP.f_div FP.f_of_int FP.f_int_quot
       sample_arith fsub fneg fadd fmul is_zero].
  rewrite (Reqb_false 2 0) by lra. cbn [bind].
  rewrite sample_div_small.
  2: lra.
  2:{ pose proof overflow_threshold_large.
      assert (Rabs ((xy + xz) / 2) <= 1) by (apply Rabs_le; lra). lra. }
  destruct (Z.eqb_spec (n - 3) 0) as [H | _]; [lia | ]. cbn [bind].
  rewrite sample_py_pow by lra. cbn [bind fmul fadd].
  rewrite steiger_den_eq by exact Hn. cbn [is_zero].
  rewrite (Reqb_false _ _ Hden). reflexivity.
Qed.

Lemma sample_steiger_e (xy xz yz : R) (n : Z) :
  -1 <= xy <= 1 -> -1 <= xz <= 1 -> -1 <= yz <= 1 ->
  n <> 3%Z -> spec_steiger_den xy xz yz n <> 0 ->
  Rabs (spec_steiger_e xy xz yz n) <= 2 ->
  FP.steiger_e sample_arith (Fin xy) (Fin xz) (Fin yz) n
  = Return (Fin (spec_steiger_e xy xz yz n)).
Proof.
  intros Hxy Hxz Hyz Hn Hden He.
  rewrite sample_steiger_e_quotient by assumption.
  rewrite sample_div_small; [reflexivity | exact Hden | ].
  fold (spec_steiger_e xy xz yz n).
  pose proof overflow_threshold_two. lra.
Qed.




Lemma dependent_corr_steiger_identity_witness :
  FP.dependent_corr sample_arith sample_ppf sample_t_cdf_fp
    (Fin (1 / 2)) (Fin (1 / 2)) (Fin 0) 5 true None "steiger"
  = Return (Fin 0, Fin 1).
Proof.
  apply (dependent_corr_steiger_identity sample_arith sample_ppf
           sample_t_cdf_fp (1 / 2) 0 5 None
           (spec_steiger_e (1 / 2) (1 / 2) 0 5));
    try lra; try lia.
  - exact sample_arith_ok.
  - unfold sample_t_cdf_fp. apply f_equal. exact (sample_t_cdf_zero 3).
  - apply sample_steiger_e; try lra; try lia.
    + rewrite steiger_den_half_half_0. lra.
    + rewrite steiger_e_half_half_0. apply Rabs_le. lra.
  - rewrite steiger_e_half_half_0. lra.
Defined.




(** ** The fisher test and the sign of the difference *)



Lemma Rltb_opp (x : R) : x <> 0 -> Rltb (- x) 0 = negb (Rltb x 0).
Proof.
  intros Hx. destruct (Rlt_dec x 0) as [H | H].
  - rewrite (Rltb_true x 0) by exact H. apply Rltb_false. lra.
  - rewrite (Rltb_false x 0) by lra. apply Rltb_true. lra.
Qed.


Section SignOfTheDifference.

Variable norm_ppf : float -> float.
Variable norm_cdf : float -> float.


End SignOfTheDifference.


(** ** The second sample size of the zou interval *)

(** C2, on the code: without [n2], [independent_corr] with method 'zou'
    produces no result (it raises [TypeError]), and the value it hands to
    [rz_ci] as the second sample size is still [None], on which [rz_ci]
    itself raises [TypeError] at [n - 3]: only the fisher branch replaces
    a missing [n2] by [n]. *)
Theorem independent_corr_zou_without_n2 :
  independent_corr sample_ppf sample_cdf (Fin (1 / 2)) (Fin (3 / 10)) 10 None
    true (Fin (95 / 100)) "zou"
  = Raise TypeError
  /\
  rz_ci sample_ppf (Fin (3 / 10)) None (Fin (95 / 100)) = Raise TypeError.
Proof.
  split; [ | reflexivity].
  unfold independent_corr.
  change (String.eqb "zou" "fisher") with false.
  change (String.eqb "zou" "zou") with true. cbv iota.
  rewrite rz_ci_at_TypeError by (lra || lia). reflexivity.
Qed.

(** ** The exceptions of [rz_ci] *)

(** X1: which exception [rz_ci] ends in.  Without a sample size ([None])
    it is [TypeError]; for n = 3 [ZeroDivisionError]; for n > 3 and a
    correlation r <= -1 or r >= 1 [ValueError] ([math.atanh]). *)
Theorem rz_ci_error_cases (norm_ppf : float -> float) (r c : float) (n : Z)
    (x : R) :
  rz_ci norm_ppf r None c = Raise TypeError
  /\ rz_ci norm_ppf r (Some 3%Z) c = Raise ZeroDivisionError
  /\ ((3 < n)%Z -> x <= -1 \/ 1 <= x ->
      rz_ci norm_ppf (Fin x) (Some n) c = Raise ValueError).
Proof.
  split; [reflexivity | split; [reflexivity | ]].
  intros Hn Hx.
  destruct (rz_ci_up_to_atanh norm_ppf (Fin x) c n Hn) as [moe ->].
  now rewrite math_atanh_out_of_domain.
Qed.

Lemma rz_ci_error_cases_witness :
  rz_ci sample_ppf (Fin (1 / 2)) None (Fin (95 / 100)) = Raise TypeError
  /\ rz_ci sample_ppf (Fin (1 / 2)) (Some 3%Z) (Fin (95 / 100))
     = Raise ZeroDivisionError
  /\ rz_ci sample_ppf (Fin 1) (Some 10%Z) (Fin (95 / 100))
     = Raise ValueError.
Proof.
  destruct (rz_ci_error_cases sample_ppf (Fin (1 / 2)) (Fin (95 / 100)) 10 1)
    as [H1 [H2 H3]].
  split; [exact H1 | split; [exact H2 | ]].
  apply H3; [lia | right; lra].
Defined.

(** ** An infinite [e] *)

Lemma steiger_den_overflow_value :
  spec_steiger_den (7 / 8) (7 / 8) (1 / 2) (10 ^ 307)
  = 49 / 512 - IZR (10 ^ 307 - 1) / IZR (10 ^ 307 - 3) / 32.
Proof.
  unfold spec_steiger_den. cbv zeta. field.
  apply not_0_IZR. intros H. vm_compute in H. discriminate.
Qed.

Lemma sample_size_ratio :
  1 <= IZR (10 ^ 307 - 1) / IZR (10 ^ 307 - 3) <= 2.
Proof.
  assert (HM : 2 <= IZR (10 ^ 307 - 3)).
  { apply (IZR_le 2). intros H. vm_compute in H. discriminate. }
  assert (HN : IZR (10 ^ 307 - 1) = IZR (10 ^ 307 - 3) + 2).
  { rewrite <- (plus_IZR _ 2). apply f_equal. reflexivity. }
  rewrite HN. set (M := IZR (10 ^ 307 - 3)) in *.
  split.
  - apply (Rmult_le_reg_r M); [lra | ].
    unfold Rdiv. rewrite Rmult_assoc, Rinv_l by lra. lra.
  - apply (Rmult_le_reg_r M); [lra | ].
    unfold Rdiv. rewrite Rmult_assoc, Rinv_l by lra. lra.
Qed.

Lemma steiger_den_overflow_bounds :
  0 < spec_steiger_den (7 / 8) (7 / 8) (1 / 2) (10 ^ 307) <= 33 / 512.
Proof.
  rewrite steiger_den_overflow_value.
  pose proof sample_size_ratio as H. lra.
Qed.

Lemma steiger_e_overflows :
  FP.steiger_e sample_arith (Fin (7 / 8)) (Fin (7 / 8)) (Fin (1 / 2))
    (10 ^ 307)
  = Return (Inf false).
Proof.
  pose proof steiger_den_overflow_bounds as [Hpos Hle].
  rewrite sample_steiger_e_quotient; try lra.
  2:{ intros H. vm_compute in H. discriminate. }
  apply f_equal. apply sample_div_large; [lra | ].
  set (den := spec_steiger_den (7 / 8) (7 / 8) (1 / 2) (10 ^ 307)) in *.
  assert (HT : IZR (2 ^ 1024) * den < IZR (10 ^ 307 - 1) * (1 + 1 / 2)).
  { assert (H : 11 * IZR (2 ^ 1024) < 256 * IZR (10 ^ 307 - 1)).
    { rewrite <- !mult_IZR. apply IZR_lt. vm_compute. reflexivity. }
    pose proof overflow_threshold_large as HT1.
    assert (IZR (2 ^ 1024) * den <= IZR (2 ^ 1024) * (33 / 512))
      by (apply Rmult_le_compat_l; lra).
    lra. }
  apply (Rmult_lt_reg_r den); [exact Hpos | ].
  unfold Rdiv. rewrite Rmult_assoc, Rinv_l by lra. lra.
Qed.

(** [dependent_corr(0.875, 0.875, 0.5, 10**307, twotailed=True)]: the
    quotient [e] overflows to +infinity, which is not negative, and the
    statistic 0 * sqrt(e) is nan. *)
Lemma dependent_corr_steiger_identity_overflow :
  FP.steiger_e sample_arith (Fin (7 / 8)) (Fin (7 / 8)) (Fin (1 / 2))
    (10 ^ 307)
  = Return (Inf false)
  /\ fnonneg (Inf false)
  /\ FP.dependent_corr sample_arith sample_ppf sample_t_cdf_fp
       (Fin (7 / 8)) (Fin (7 / 8)) (Fin (1 / 2)) (10 ^ 307) true None
       "steiger"
     = Return (NaN, NaN).
Proof.
  split; [exact steiger_e_overflows | split; [reflexivity | ]].
  unfold FP.dependent_corr.
  change (String.eqb "steiger" "steiger") with true. cbv iota zeta.
  rewrite steiger_e_overflows. cbn [bind flt].
  cbn [FP.f_sub FP.f_mul FP.f_sqrt sample_arith fsub fneg fadd np_sqrt fmul].
  rewrite Reqb_true by lra. reflexivity.
Qed.
